(** * goproxy command: request pipeline, file resolver and server start-up

    A shallow embedding of [cmd/goproxy/main.go].  The program is wiring
    code over the Go standard library, so the development has three layers:

    - the pieces of the Go library the program calls ([strings],
      [context], [errors], [net/http.StripPrefix], [path/filepath]),
      transcribed from the library as far as the program depends on them;
    - the program itself: the handler chain built in [main]
      ([build_handler]), the choice of serving mode and the treatment of the
      serve error ([main_serve]), and [httpDirFS.Open] ([Open]);
    - the properties.

    Effects are explicit.  A handler run yields the trace of the effects the
    pipeline performs (deadline creation, cancellation, the 404 reply, the
    call of the proxy engine) and says whether the run returned or panicked;
    [Open] yields the list of file-system calls it made and a result that is
    a value, an error or a run-time panic. *)

From Stdlib Require Import Bool Arith ZArith List String Ascii Lia.
Import ListNotations.

Local Open Scope string_scope.

(* ================================================================= *)
(** ** Go strings: byte sequences with slicing *)

Module GoStrings.

(** [s[:n]], for [n <= len(s)]. *)
Fixpoint take (n : nat) (s : string) : string :=
  match n, s with
  | S n', String c s' => String c (take n' s')
  | _, _ => EmptyString
  end.

(** [s[n:]], for [n <= len(s)]. *)
Fixpoint drop (n : nat) (s : string) : string :=
  match n, s with
  | S n', String _ s' => drop n' s'
  | _, _ => s
  end.

(** [s[n:]] as Go evaluates it: out of range is a run-time panic,
    rendered as [None]. *)
Definition slice_from (n : nat) (s : string) : option string :=
  if (n <=? length s)%nat then Some (drop n s) else None.

(** [strings.HasPrefix]:
    [len(s) >= len(prefix) && s[:len(prefix)] == prefix]. *)
Definition HasPrefix (s prefix : string) : bool :=
  (length prefix <=? length s)%nat && (take (length prefix) s =? prefix).

(** [strings.TrimPrefix]. *)
Definition TrimPrefix (s prefix : string) : string :=
  if HasPrefix s prefix then drop (length prefix) s else s.

(** [strings.ReplaceAll(s, string(old), string(new))] for one-byte
    [old] and [new]. *)
Fixpoint ReplaceAllByte (old new : ascii) (s : string) : string :=
  match s with
  | EmptyString => EmptyString
  | String c s' =>
      String (if Ascii.eqb c old then new else c) (ReplaceAllByte old new s')
  end.

End GoStrings.
Import GoStrings.

(* ================================================================= *)
(** ** Go errors *)

(** Error values as the program meets them: the sentinel
    [http.ErrServerClosed], values made by [errors.New], and errors that
    wrap another one (with [Unwrap]). *)
Inductive GoError : Type :=
| ErrServerClosed
| errorString (s : string)
| wrapError (msg : string) (err : GoError).

Definition errors_New (text : string) : GoError := errorString text.

(** [err.Error()]. *)
Definition Error (e : GoError) : string :=
  match e with
  | ErrServerClosed => "http: Server closed"
  | errorString s => s
  | wrapError msg _ => msg
  end.

(** [err == http.ErrServerClosed]: identity of the sentinel. *)
Definition is_ErrServerClosed (e : GoError) : bool :=
  match e with
  | ErrServerClosed => true
  | _ => false
  end.

(** [errors.Is(err, http.ErrServerClosed)] for a non-nil [err]: compare,
    then follow [Unwrap]. *)
Fixpoint errors_Is_ServerClosed (e : GoError) : bool :=
  is_ErrServerClosed e ||
  match e with
  | wrapError _ inner => errors_Is_ServerClosed inner
  | _ => false
  end.

(** A result that is a value, an error, or a run-time panic. *)
Inductive Result (A : Type) : Type :=
| Ok (a : A)
| Err (e : GoError)
| Panic (msg : string).
Arguments Ok {A} a.
Arguments Err {A} e.
Arguments Panic {A} msg.

(* ================================================================= *)
(** ** Contexts, requests and handler runs *)

(** [context.Context] values: the context the server attached to the
    request (cancelled when the client goes away), and contexts derived from
    a parent by [context.WithTimeout].  A [time.Duration] is an integer
    number of nanoseconds. *)
Inductive Context : Type :=
| ctxBase (id : nat)
| ctxWithTimeout (parent : Context) (timeout : Z).

Definition ctx_parent (c : Context) : option Context :=
  match c with
  | ctxBase _ => None
  | ctxWithTimeout p _ => Some p
  end.

(** [ctx.Done()] is closed: the context itself was cancelled, its timer
    fired ([elapsed] nanoseconds after its creation), or its parent is
    done. *)
Fixpoint ctx_done (cancelled : Context -> bool) (elapsed : Z) (c : Context) : bool :=
  cancelled c ||
  match c with
  | ctxBase _ => false
  | ctxWithTimeout p d => (d <=? elapsed)%Z || ctx_done cancelled elapsed p
  end.

(** The two forms of the path of [url.URL]. *)
Record URL : Type := mkURL {
  Path : string;
  RawPath : string
}.

Record Request : Type := mkRequest {
  req_URL : URL;
  req_Context : Context
}.

(** [req.WithContext(ctx)]: a copy of the request with the context
    replaced. *)
Definition WithContext (req : Request) (ctx : Context) : Request :=
  {| req_URL := req_URL req; req_Context := ctx |}.

(** The effects of the pipeline on one request. *)
Inductive Event : Type :=
| EvWithTimeout (parent : Context) (timeout : Z)
| EvCancel (ctx : Context)
| EvNotFound
| EvEngine (r : Request).

Inductive Outcome : Type := Returned | Panicked.

(** A run: the effects in order and how the call ended. *)
Definition Run : Type := (list Event * Outcome)%type.

(** [ServeHTTP(rw, req)]. *)
Definition Handler : Type := Request -> Run.

Definition emit (e : Event) : Run := ([e], Returned).

(** Sequencing of statements: a panic in the first skips the second. *)
Definition andThen (a b : Run) : Run :=
  match snd a with
  | Returned => ((fst a ++ fst b)%list, snd b)
  | Panicked => (fst a, Panicked)
  end.

Notation "a >> b" := (andThen a b) (at level 62, right associativity).

Definition is_deadline_setup (e : Event) : bool :=
  match e with EvWithTimeout _ _ => true | _ => false end.

Definition is_cancel (e : Event) : bool :=
  match e with EvCancel _ => true | _ => false end.

Definition is_not_found (e : Event) : bool :=
  match e with EvNotFound => true | _ => false end.

Definition count (p : Event -> bool) (t : list Event) : nat :=
  List.length (filter p t).

(** The requests the engine was called with, in order. *)
Fixpoint engine_calls (t : list Event) : list Request :=
  match t with
  | [] => []
  | EvEngine r :: t' => r :: engine_calls t'
  | _ :: t' => engine_calls t'
  end.

(** [net/http.StripPrefix] (Go 1.16 and later, where the escaped form of
    the path must carry the prefix too):
<<
    if len(prefix) == 0 { return h }   // prefix is the empty string
    return HandlerFunc(func(w ResponseWriter, r *Request) {
        p := strings.TrimPrefix(r.URL.Path, prefix)
        rp := strings.TrimPrefix(r.URL.RawPath, prefix)
        if len(p) < len(r.URL.Path) && (len(r.URL.RawPath) == 0 || len(rp) < len(r.URL.RawPath)) {
            r2 := new(Request); *r2 = *r
            r2.URL = new(url.URL); *r2.URL = *r.URL
            r2.URL.Path = p; r2.URL.RawPath = rp
            h.ServeHTTP(w, r2)
        } else {
            NotFound(w, r)
        }
    })
>> *)
Definition StripPrefix (prefix : string) (h : Handler) : Handler :=
  if prefix =? EmptyString then h
  else fun r =>
    let p := TrimPrefix (Path (req_URL r)) prefix in
    let rp := TrimPrefix (RawPath (req_URL r)) prefix in
    if (length p <? length (Path (req_URL r)))%nat
       && ((RawPath (req_URL r) =? EmptyString)
           || (length rp <? length (RawPath (req_URL r)))%nat)
    then h {| req_URL := {| Path := p; RawPath := rp |};
              req_Context := req_Context r |}
    else emit EvNotFound.

(* ================================================================= *)
(** ** The program: configuration and handler chain *)

(** The flags the modelled code reads. *)
Record Config : Type := mkConfig {
  address : string;
  tlsCertFile : string;
  tlsKeyFile : string;
  pathPrefix : string;
  fetchTimeout : Z
}.

(** The proxy engine [g]: its call is recorded with the request it
    receives; whether it returns or panics is left open. *)
Definition engine (behaviour : Request -> Outcome) : Handler :=
  fun r => ([EvEngine r], behaviour r).

(** The closure of [main], lines 55-61:
<<
    ctx, cancel := context.WithTimeout(req.Context(), *fetchTimeout)
    h.ServeHTTP(rw, req.WithContext(ctx))
    cancel()
>> *)
Definition withFetchTimeout (timeout : Z) (h : Handler) : Handler :=
  fun req =>
    let ctx := ctxWithTimeout (req_Context req) timeout in
    emit (EvWithTimeout (req_Context req) timeout)
    >> h (WithContext req ctx)
    >> emit (EvCancel ctx).

(** The handler given to the server, lines 50-62:
<<
    handler := http.Handler(g)
    if prefix is not empty { handler = http.StripPrefix(prefix, handler) }
    if timeout > 0 { handler = closure(handler) }
>>
    with the flag values [pathPrefix] and [fetchTimeout] and the closure
    [withFetchTimeout]. *)
Definition build_handler (cfg : Config) (g : Handler) : Handler :=
  let handler := g in
  let handler :=
    if negb (pathPrefix cfg =? EmptyString)
    then StripPrefix (pathPrefix cfg) handler
    else handler in
  let handler :=
    if (0 <? fetchTimeout cfg)%Z
    then withFetchTimeout (fetchTimeout cfg) handler
    else handler in
  handler.

(** The value of [handler] after line 53: the first stage alone. *)
Definition strip_stage (cfg : Config) (g : Handler) : Handler :=
  if negb (pathPrefix cfg =? EmptyString) then StripPrefix (pathPrefix cfg) g
  else g.

(* ================================================================= *)
(** ** The program: serving and the serve error *)

Inductive ServeCall : Type :=
| ListenAndServe (addr : string)
| ListenAndServeTLS (addr certFile keyFile : string).

Inductive MainEvent : Type :=
| EvServe (c : ServeCall)
| EvLog (line : string).

Definition is_serve (e : MainEvent) : bool :=
  match e with EvServe _ => true | _ => false end.

Definition is_log (e : MainEvent) : bool :=
  match e with EvLog _ => true | _ => false end.

Definition count_main (p : MainEvent -> bool) (t : list MainEvent) : nat :=
  List.length (filter p t).

Definition is_TLS (c : ServeCall) : bool :=
  match c with ListenAndServeTLS _ _ _ => true | ListenAndServe _ => false end.

Definition newline : string := String (ascii_of_nat 10) EmptyString.

(** Lines 66-70: which serve method [main] calls. *)
Definition serve_call (cfg : Config) : ServeCall :=
  if negb (tlsCertFile cfg =? EmptyString) && negb (tlsKeyFile cfg =? EmptyString)
  then ListenAndServeTLS (address cfg) (tlsCertFile cfg) (tlsKeyFile cfg)
  else ListenAndServe (address cfg).

(** Lines 64-75.  [serve] is the blocking serve call: [None] is a nil
    error.  The result is what [main] did, in order, until it returned. *)
Definition main_serve (cfg : Config) (serve : ServeCall -> option GoError)
  : list MainEvent :=
  let call := serve_call cfg in
  let err := serve call in
  EvServe call ::
  match err with
  | Some e =>
      if negb (errors_Is_ServerClosed e)
      then [EvLog ("http server error: " ++ Error e ++ newline)]
      else []
  | None => []
  end.

(* ================================================================= *)
(** ** The program: the file resolver [httpDirFS.Open] *)

(** What [path/filepath] fixes per platform. *)
Record Platform : Type := mkPlatform {
  Separator : ascii;
  VolumeName : string -> string;
  IsAbs : string -> bool
}.

Definition slash : ascii := "/"%char.
Definition backslash : ascii := "\"%char.

(** [filepath.FromSlash]:
<<
    if Separator == '/' { return path }
    return strings.ReplaceAll(path, "/", string(Separator))
>> *)
Definition FromSlash (pf : Platform) (path : string) : string :=
  if Ascii.eqb (Separator pf) slash then path
  else ReplaceAllByte slash (Separator pf) path.

(** An open file: the handle remembers the name it was opened under. *)
Record File : Type := mkFile { file_name : string }.

(** [os.O_RDONLY]. *)
Definition O_RDONLY : Z := 0%Z.

(** The calls of the resolver into the file system. *)
Inductive SysCall : Type :=
| SysOpenFile (name : string) (flag : Z) (perm : Z).

(** The file system: the file or the error that [os.OpenFile] returns for
    a name, a flag and a permission. *)
Definition FileSystem : Type := string -> Z -> Z -> File + GoError.

(** [os.Open(name)] is [OpenFile(name, O_RDONLY, 0)]. *)
Definition os_Open (fsys : FileSystem) (name : string)
  : list SysCall * Result File :=
  ([SysOpenFile name O_RDONLY 0%Z],
   match fsys name O_RDONLY 0%Z with
   | inl f => Ok f
   | inr e => Err e
   end).

Definition err_missing_drive_letter : GoError :=
  errors_New "file URL missing drive letter".

Definition err_not_absolute : GoError :=
  errors_New "path is not absolute".

(** The two backslashes of the UNC test on line 84. *)
Definition unc_prefix : string := String backslash (String backslash EmptyString).

(** Lines 80-87: separator translation and, where the separator is a
    backslash, the slice [name[1:]] and the test of the volume name.  The
    result is the name that reaches line 88. *)
Definition translate (pf : Platform) (name : string) : Result string :=
  let name := FromSlash pf name in
  if Ascii.eqb (Separator pf) backslash then
    match slice_from 1 name with
    | None => Panic "slice bounds out of range [1:0]"
    | Some name =>
        let volumeName := VolumeName pf name in
        if (volumeName =? EmptyString) || HasPrefix volumeName unc_prefix
        then Err err_missing_drive_letter
        else Ok name
    end
  else Ok name.

(** [httpDirFS.Open], lines 79-92. *)
Definition Open (pf : Platform) (fsys : FileSystem) (name : string)
  : list SysCall * Result File :=
  match translate pf name with
  | Ok name =>
      if negb (IsAbs pf name) then ([], Err err_not_absolute)
      else os_Open fsys name
  | Err e => ([], Err e)
  | Panic m => ([], Panic m)
  end.

(** *** The two platforms *)

Module Unix.

(** [filepath.VolumeName] outside Windows: there is no volume. *)
Definition VolumeName (path : string) : string := EmptyString.

(** [filepath.IsAbs] on Unix: [strings.HasPrefix(path, "/")]. *)
Definition IsAbs (path : string) : bool := HasPrefix path "/".

Definition platform : Platform :=
  mkPlatform slash VolumeName IsAbs.

End Unix.

Module Windows.

Definition isSlash (c : ascii) : bool :=
  Ascii.eqb c backslash || Ascii.eqb c slash.

Definition isLetter (c : ascii) : bool :=
  let n := nat_of_ascii c in
  ((97 <=? n) && (n <=? 122) || (65 <=? n) && (n <=? 90))%nat.

(** The end of the share name: the index of the next separator, or the
    length of the path. *)
Fixpoint share_end (s : string) (n : nat) : nat :=
  match s with
  | EmptyString => n
  | String c s' => if isSlash c then n else share_end s' (S n)
  end.

(** The scan for the separator between server and share; [s] is
    [path[n:]], and the scan stops one byte before the end. *)
Fixpoint unc_scan (s : string) (n : nat) : nat :=
  match s with
  | String c (String d _ as s') =>
      if isSlash c then
        if isSlash d then 0
        else if Ascii.eqb d "."%char then 0
        else share_end s' (S n)
      else unc_scan s' (S n)
  | _ => 0
  end.

(** [volumeNameLen] of [path_windows.go] (Go 1.16 to 1.19): a drive
    letter with its colon, or the server and share of a UNC path. *)
Definition volumeNameLen (path : string) : nat :=
  match path with
  | String c0 (String c1 rest) =>
      if Ascii.eqb c1 ":"%char && isLetter c0 then 2
      else
        match rest with
        | String c2 _ =>
            if (5 <=? length path)%nat && isSlash c0 && isSlash c1
               && negb (isSlash c2) && negb (Ascii.eqb c2 "."%char)
            then unc_scan (drop 3 path) 3
            else 0
        | EmptyString => 0
        end
  | _ => 0
  end.

Definition VolumeName (path : string) : string :=
  take (volumeNameLen path) path.

(** [filepath.IsAbs] on Windows once the reserved device names are set
    aside (they have no volume name):
<<
  l := volumeNameLen(path)
  if l == 0 { return false }
  path = path[l:]
  if len(path) == 0 { return false }
  return isSlash(path[0])
>> *)
Definition IsAbs (path : string) : bool :=
  let l := volumeNameLen path in
  if Nat.eqb l 0 then false
  else
    match drop l path with
    | EmptyString => false
    | String c _ => isSlash c
    end.

Definition platform : Platform :=
  mkPlatform backslash VolumeName IsAbs.

End Windows.

(* ================================================================= *)
(** ** Properties of traces, and sample inputs *)

(** Where the first stage rejects, no deadline context was created
    earlier in the run. *)
Definition no_deadline_before_rejection (t : list Event) : Prop :=
  forall pre post,
    t = (pre ++ EvNotFound :: post)%list -> count is_deadline_setup pre = 0.

(** The engine is called once, with the path of the request less the
    prefix in front. *)
Definition engine_sees_suffix (prefix : string) (req : Request) (t : list Event)
  : Prop :=
  exists r', engine_calls t = [r']
             /\ Path (req_URL req) = prefix ++ Path (req_URL r').

Definition sample_config (prefix : string) (timeout : Z) : Config :=
  {| address := "localhost:8080"; tlsCertFile := EmptyString;
     tlsKeyFile := EmptyString; pathPrefix := prefix;
     fetchTimeout := timeout |}.

Definition sample_request (path raw : string) : Request :=
  {| req_URL := {| Path := path; RawPath := raw |};
     req_Context := ctxBase 0 |}.

Definition ten_minutes : Z := 600000000000.

Definition sample_fs : FileSystem :=
  fun name _ _ =>
    if name =? "C:\mods\example" then inl {| file_name := name |}
    else inr (wrapError ("open " ++ name ++ ": no such file or directory")
                (errorString "no such file or directory")).

(* ================================================================= *)
(** ** The program: flags and the configuration of the engine *)

(** [strings.IndexByte]: the index of the first [c] in [s]. *)
Fixpoint IndexByte (s : string) (c : ascii) : option nat :=
  match s with
  | EmptyString => None
  | String d s' =>
      if Ascii.eqb d c then Some 0
      else match IndexByte s' c with
           | Some m => Some (S m)
           | None => None
           end
  end.

(** [strings.Count(s, string(c))] for a one-byte separator. *)
Fixpoint CountByte (s : string) (c : ascii) : nat :=
  match s with
  | EmptyString => 0
  | String d s' => (if Ascii.eqb d c then 1 else 0) + CountByte s' c
  end.

(** The loop of [strings.genSplit], run at most [n] times:
<<
    for i < n {
        m := Index(s, sep)
        if m < 0 { break }
        a[i] = s[:m]
        s = s[m+len(sep):]
        i++
    }
    a[i] = s
>> *)
Fixpoint split_loop (n : nat) (s : string) (sep : ascii) : list string :=
  match n with
  | 0 => [s]
  | S n' =>
      match IndexByte s sep with
      | None => [s]
      | Some m => take m s :: split_loop n' (drop (m + 1) s) sep
      end
  end.

(** [strings.Split(s, string(sep))] for a one-byte separator: the loop
    runs [Count(s, sep)] times. *)
Definition Split (s : string) (sep : ascii) : list string :=
  split_loop (CountByte s sep) s sep.

(** [strings.Join]. *)
Fixpoint Join (elems : list string) (sep : string) : string :=
  match elems with
  | [] => EmptyString
  | [a] => a
  | a :: rest => a ++ sep ++ Join rest sep
  end.

Definition comma : ascii := ","%char.

Definition second : Z := 1000000000.
Definition minute : Z := 60 * second.

(** All the flags of lines 19-32; the five that the serving code reads
    are the [Config] inside. *)
Record Flags : Type := mkFlags {
  flags_config : Config;
  goBinName : string;
  maxDirectFetches : Z;
  proxiedSUMDBs : string;
  cacheDir : string;
  tempDir : string;
  insecure : bool;
  connectTimeout : Z
}.

(** The default values of the flags; [osTempDir] is [os.TempDir()]. *)
Definition default_flags (osTempDir : string) : Flags :=
  {| flags_config :=
       {| address := "localhost:8080";
          tlsCertFile := EmptyString;
          tlsKeyFile := EmptyString;
          pathPrefix := EmptyString;
          fetchTimeout := 10 * minute |};
     goBinName := "go";
     maxDirectFetches := 0;
     proxiedSUMDBs := EmptyString;
     cacheDir := "caches";
     tempDir := osTempDir;
     insecure := false;
     connectTimeout := 30 * second |}.

(** The fields of [goproxy.Goproxy] that [main] sets from flags, lines
    41-48. *)
Record GoproxyFields : Type := mkGoproxyFields {
  GoBinName : string;
  MaxDirectFetches : Z;
  ProxiedSUMDBs : list string;
  Cacher : string;
  TempDir : string
}.

Definition goproxy_fields (fl : Flags) : GoproxyFields :=
  {| GoBinName := goBinName fl;
     MaxDirectFetches := maxDirectFetches fl;
     ProxiedSUMDBs := Split (proxiedSUMDBs fl) comma;
     Cacher := cacheDir fl;
     TempDir := tempDir fl |}.

(** The chain of errors that [errors.Is] walks: the error, what it
    wraps, and so on. *)
Fixpoint unwrap_chain (e : GoError) : list GoError :=
  e :: match e with
       | wrapError _ inner => unwrap_chain inner
       | _ => []
       end.

(** [strings.IndexByte(s, c) >= 0]. *)
Definition ContainsByte (s : string) (c : ascii) : bool :=
  match IndexByte s c with
  | Some _ => true
  | None => false
  end.

(** The set of cancelled contexts that holds the base context [i] alone:
    the client of that request went away. *)
Definition Context_is_base (i : nat) (c : Context) : bool :=
  match c with
  | ctxBase j => Nat.eqb i j
  | ctxWithTimeout _ _ => false
  end.

(** The names the resolver handed to the file system. *)
Definition opened_names (calls : list SysCall) : list string :=
  map (fun c => match c with SysOpenFile n _ _ => n end) calls.

(* ================================================================= *)
(** ** Facts about the string functions *)

Section StringFacts.

Lemma take_app (p r : string) : take (length p) (p ++ r) = p.
Proof.
  induction p as [|c p IH]; simpl.
  - destruct r; reflexivity.
  - now rewrite IH.
Qed.

Lemma drop_app (p r : string) : drop (length p) (p ++ r) = r.
Proof.
  induction p as [|c p IH]; simpl; [destruct r; reflexivity | exact IH].
Qed.

Lemma take_drop (n : nat) (s : string) : take n s ++ drop n s = s.
Proof.
  revert s; induction n as [|n IH]; intros [|c s]; simpl; try reflexivity.
  now rewrite IH.
Qed.

Lemma length_app (a b : string) : length (a ++ b) = length a + length b.
Proof.
  induction a as [|c a IH]; simpl; [reflexivity | now rewrite IH].
Qed.

Lemma HasPrefix_iff (s p : string) :
  HasPrefix s p = true <-> exists r, s = p ++ r.
Proof.
  unfold HasPrefix; split.
  - intros H. apply andb_true_iff in H as [_ H].
    apply String.eqb_eq in H.
    exists (drop (length p) s).
    rewrite <- H at 1. symmetry; apply take_drop.
  - intros [r ->]. apply andb_true_iff; split.
    + apply Nat.leb_le. rewrite length_app; lia.
    + rewrite take_app. apply String.eqb_refl.
Qed.

Lemma TrimPrefix_app (p r : string) : TrimPrefix (p ++ r) p = r.
Proof.
  unfold TrimPrefix.
  replace (HasPrefix (p ++ r) p) with true
    by (symmetry; apply HasPrefix_iff; now exists r).
  apply drop_app.
Qed.

Lemma TrimPrefix_miss (s p : string) :
  HasPrefix s p = false -> TrimPrefix s p = s.
Proof. unfold TrimPrefix; now intros ->. Qed.

Lemma length_ReplaceAllByte (old new : ascii) (s : string) :
  length (ReplaceAllByte old new s) = length s.
Proof.
  induction s as [|c s IH]; simpl; [reflexivity | now rewrite IH].
Qed.

Lemma eqb_empty_false (s : string) :
  s <> EmptyString -> (s =? EmptyString) = false.
Proof. intros H; apply String.eqb_neq; exact H. Qed.

Lemma nonempty_length (s : string) : s <> EmptyString -> 0 < length s.
Proof. destruct s; [congruence | simpl; lia]. Qed.

End StringFacts.

(* ================================================================= *)
(** ** Facts about runs and stages *)

Section RunFacts.

Lemma emit_andThen (e : Event) (r : Run) :
  (emit e >> r) = (e :: fst r, snd r).
Proof. reflexivity. Qed.

Lemma andThen_emit (r : Run) (e : Event) :
  (r >> emit e) =
  match snd r with
  | Returned => ((fst r ++ [e])%list, Returned)
  | Panicked => (fst r, Panicked)
  end.
Proof. unfold andThen; destruct (snd r); reflexivity. Qed.

(** The run of the deadline closure, effect by effect. *)
Lemma withFetchTimeout_run (T : Z) (h : Handler) (req : Request) :
  let ctx := ctxWithTimeout (req_Context req) T in
  let down := h (WithContext req ctx) in
  withFetchTimeout T h req =
  match snd down with
  | Returned =>
      (EvWithTimeout (req_Context req) T :: (fst down ++ [EvCancel ctx])%list,
       Returned)
  | Panicked => (EvWithTimeout (req_Context req) T :: fst down, Panicked)
  end.
Proof.
  cbv zeta. unfold withFetchTimeout.
  rewrite andThen_emit, emit_andThen.
  destruct (snd (h _)); reflexivity.
Qed.

(** The prefix test of [StripPrefix], for a prefix that is not empty. *)
Lemma StripPrefix_miss (P : string) (h : Handler) (req : Request) :
  P <> EmptyString ->
  HasPrefix (Path (req_URL req)) P = false ->
  StripPrefix P h req = emit EvNotFound.
Proof.
  intros HP Hmiss. unfold StripPrefix.
  rewrite (eqb_empty_false _ HP).
  rewrite (TrimPrefix_miss _ _ Hmiss), Nat.ltb_irrefl. reflexivity.
Qed.

Lemma trimmed_shorter (s P : string) :
  P <> EmptyString -> HasPrefix s P = true ->
  (length (TrimPrefix s P) <? length s)%nat = true.
Proof.
  intros HP H. apply HasPrefix_iff in H as [r ->].
  rewrite TrimPrefix_app, length_app.
  apply Nat.ltb_lt. pose proof (nonempty_length _ HP). lia.
Qed.

Lemma StripPrefix_hit (P : string) (h : Handler) (req : Request) :
  P <> EmptyString ->
  HasPrefix (Path (req_URL req)) P = true ->
  RawPath (req_URL req) = EmptyString
  \/ HasPrefix (RawPath (req_URL req)) P = true ->
  StripPrefix P h req =
  h {| req_URL := {| Path := TrimPrefix (Path (req_URL req)) P;
                     RawPath := TrimPrefix (RawPath (req_URL req)) P |};
       req_Context := req_Context req |}.
Proof.
  intros HP Hhit Hraw. unfold StripPrefix.
  rewrite (eqb_empty_false _ HP), (trimmed_shorter _ _ HP Hhit).
  destruct Hraw as [-> | Hraw]; [reflexivity |].
  rewrite (trimmed_shorter _ _ HP Hraw), orb_true_r. reflexivity.
Qed.

(** The chain is the first stage, wrapped by the deadline closure when
    the timeout is positive. *)
Lemma build_handler_stages (cfg : Config) (h : Handler) :
  build_handler cfg h =
  if (0 <? fetchTimeout cfg)%Z
  then withFetchTimeout (fetchTimeout cfg) (strip_stage cfg h)
  else strip_stage cfg h.
Proof. reflexivity. Qed.

Lemma strip_stage_configured (cfg : Config) (h : Handler) :
  pathPrefix cfg <> EmptyString ->
  strip_stage cfg h = StripPrefix (pathPrefix cfg) h.
Proof.
  intros HP. unfold strip_stage. now rewrite (eqb_empty_false _ HP).
Qed.

(** Whatever the configuration, the first stage either answers 404
    itself or hands a request with the same context to the next
    handler. *)
Lemma strip_stage_cases (cfg : Config) (g : Handler) (req : Request) :
  strip_stage cfg g req = emit EvNotFound
  \/ exists u, strip_stage cfg g req
               = g {| req_URL := u; req_Context := req_Context req |}.
Proof.
  unfold strip_stage, StripPrefix.
  destruct (pathPrefix cfg =? EmptyString); simpl.
  - right. exists (req_URL req). now destruct req.
  - match goal with |- context [if ?c then _ else _] => destruct c end.
    + right. eexists; reflexivity.
    + now left.
Qed.

End RunFacts.

(* ================================================================= *)
(** ** The request pipeline *)

Section Pipeline.

Variable behaviour : Request -> Outcome.

Local Abbreviation g := (engine behaviour).

Lemma strip_stage_engine_context (cfg : Config) (req : Request) (r' : Request) :
  In r' (engine_calls (fst (strip_stage cfg g req))) ->
  req_Context r' = req_Context req.
Proof.
  destruct (strip_stage_cases cfg g req) as [-> | [u ->]]; simpl.
  - tauto.
  - intros [<- | []]; reflexivity.
Qed.

Lemma strip_stage_no_deadline (cfg : Config) (req : Request) :
  count is_deadline_setup (fst (strip_stage cfg g req)) = 0
  /\ count is_cancel (fst (strip_stage cfg g req)) = 0.
Proof.
  destruct (strip_stage_cases cfg g req) as [-> | [u ->]]; split; reflexivity.
Qed.

Lemma engine_calls_app (a b : list Event) :
  engine_calls (a ++ b) = (engine_calls a ++ engine_calls b)%list.
Proof.
  induction a as [|e a IH]; simpl; [reflexivity |].
  destruct e; simpl; now rewrite IH.
Qed.

Lemma count_app (p : Event -> bool) (a b : list Event) :
  count p (a ++ b) = count p a + count p b.
Proof. unfold count. now rewrite filter_app, List.length_app. Qed.

(** C1, as the code has it: with a prefix and a positive fetch timeout
    both configured, the deadline stage is the outer one.  For every
    request the deadline context is created first; the prefix stage then
    runs under it, either rejecting with 404 or calling the engine with
    the derived context; the context is cancelled when the prefix stage
    returns.  A rejected request creates and cancels one deadline. *)
Theorem deadline_wraps_prefix_stage (cfg : Config) (req : Request) :
  pathPrefix cfg <> EmptyString ->
  (0 < fetchTimeout cfg)%Z ->
  let ctx := ctxWithTimeout (req_Context req) (fetchTimeout cfg) in
  let inner := StripPrefix (pathPrefix cfg) g (WithContext req ctx) in
  fst (build_handler cfg g req)
  = (EvWithTimeout (req_Context req) (fetchTimeout cfg) :: fst inner
     ++ match snd inner with Returned => [EvCancel ctx] | Panicked => [] end)%list
  /\ count is_deadline_setup (fst inner) = 0
  /\ (HasPrefix (Path (req_URL req)) (pathPrefix cfg) = false ->
      build_handler cfg g req
      = ([EvWithTimeout (req_Context req) (fetchTimeout cfg);
          EvNotFound; EvCancel ctx], Returned)).
Proof.
  intros HP HT ctx inner.
  assert (Hb : build_handler cfg g req
               = withFetchTimeout (fetchTimeout cfg)
                   (StripPrefix (pathPrefix cfg) g) req).
  { rewrite build_handler_stages.
    now rewrite (proj2 (Z.ltb_lt _ _) HT), (strip_stage_configured _ _ HP). }
  rewrite Hb, withFetchTimeout_run. fold ctx inner.
  split; [| split].
  - destruct (snd inner); simpl; [reflexivity | now rewrite app_nil_r].
  - pose proof (strip_stage_no_deadline cfg (WithContext req ctx)) as [H _].
    now rewrite (strip_stage_configured _ _ HP) in H.
  - intros Hmiss. subst inner.
    rewrite (StripPrefix_miss _ g (WithContext req ctx) HP Hmiss). reflexivity.
Qed.

(** C2: with a prefix configured, a request whose path does not start
    with it is answered with 404, once, and the run does not depend on
    the downstream handler: the engine is not called.  (Where a fetch
    timeout is configured the 404 sits between the creation and the
    cancellation of the deadline.) *)
Theorem mismatch_is_not_found (cfg : Config) (h : Handler) (req : Request) :
  pathPrefix cfg <> EmptyString ->
  HasPrefix (Path (req_URL req)) (pathPrefix cfg) = false ->
  let ctx := ctxWithTimeout (req_Context req) (fetchTimeout cfg) in
  build_handler cfg h req
  = (if (0 <? fetchTimeout cfg)%Z
     then [EvWithTimeout (req_Context req) (fetchTimeout cfg);
           EvNotFound; EvCancel ctx]
     else [EvNotFound], Returned)
  /\ count is_not_found (fst (build_handler cfg h req)) = 1
  /\ engine_calls (fst (build_handler cfg h req)) = [].
Proof.
  intros HP Hmiss ctx.
  assert (H : build_handler cfg h req
              = (if (0 <? fetchTimeout cfg)%Z
                 then [EvWithTimeout (req_Context req) (fetchTimeout cfg);
                       EvNotFound; EvCancel ctx]
                 else [EvNotFound], Returned)).
  { rewrite build_handler_stages, (strip_stage_configured _ _ HP).
    destruct (0 <? fetchTimeout cfg)%Z.
    - rewrite withFetchTimeout_run.
      rewrite (StripPrefix_miss _ h (WithContext req _) HP Hmiss). reflexivity.
    - now rewrite (StripPrefix_miss _ h req HP Hmiss). }
  rewrite H. split; [reflexivity |].
  destruct (0 <? fetchTimeout cfg)%Z; split; reflexivity.
Qed.

(** C3, as the code has it: with a prefix configured, a request whose
    path starts with it, and whose escaped path is either unset or starts
    with it too, reaches the engine once, and the engine sees the path
    with one leading occurrence of the prefix removed and the rest as it
    was (the escaped path is trimmed in the same way). *)
Theorem match_strips_one_prefix (cfg : Config) (req : Request) :
  pathPrefix cfg <> EmptyString ->
  HasPrefix (Path (req_URL req)) (pathPrefix cfg) = true ->
  RawPath (req_URL req) = EmptyString
  \/ HasPrefix (RawPath (req_URL req)) (pathPrefix cfg) = true ->
  engine_sees_suffix (pathPrefix cfg) req (fst (build_handler cfg g req))
  /\ (forall r', In r' (engine_calls (fst (build_handler cfg g req))) ->
        Path (req_URL r') = drop (length (pathPrefix cfg)) (Path (req_URL req))
        /\ RawPath (req_URL r')
           = TrimPrefix (RawPath (req_URL req)) (pathPrefix cfg))
  /\ count is_not_found (fst (build_handler cfg g req)) = 0.
Proof.
  intros HP Hhit Hraw.
  set (P := pathPrefix cfg) in *.
  destruct req as [u c]; simpl in Hhit, Hraw; simpl req_URL.
  assert (Hs : forall c', strip_stage cfg g {| req_URL := u; req_Context := c' |}
               = g {| req_URL := {| Path := TrimPrefix (Path u) P;
                                    RawPath := TrimPrefix (RawPath u) P |};
                      req_Context := c' |}).
  { intros c'. rewrite (strip_stage_configured _ _ HP). fold P.
    exact (StripPrefix_hit P g {| req_URL := u; req_Context := c' |}
             HP Hhit Hraw). }
  assert (Htrim : TrimPrefix (Path u) P = drop (length P) (Path u))
    by (unfold TrimPrefix; now rewrite Hhit).
  assert (Hsplit : Path u = P ++ TrimPrefix (Path u) P).
  { destruct (proj1 (HasPrefix_iff _ _) Hhit) as [r Hr].
    rewrite Hr at 2. now rewrite TrimPrefix_app. }
  unfold engine_sees_suffix. rewrite build_handler_stages.
  destruct (0 <? fetchTimeout cfg)%Z.
  - rewrite withFetchTimeout_run. unfold WithContext. simpl req_URL.
    rewrite Hs. unfold engine; simpl.
    destruct (behaviour _); simpl; (split; [| split]);
      try reflexivity;
      try (eexists; split; [reflexivity | exact Hsplit]);
      intros r' [<- | []]; simpl; split; auto.
  - rewrite Hs. unfold engine; simpl. split; [| split].
    + eexists; split; [reflexivity | exact Hsplit].
    + intros r' [<- | []]; simpl; split; auto.
    + reflexivity.
Qed.

(** C4: with a fetch timeout that is zero or negative the deadline stage
    is absent: the handler is the prefix stage alone, whatever the
    downstream handler; no deadline context is created or cancelled, and
    the engine sees the context the request came with. *)
Theorem nonpositive_timeout_is_pass_through (cfg : Config) (req : Request) :
  (fetchTimeout cfg <= 0)%Z ->
  (forall h : Handler, build_handler cfg h = strip_stage cfg h)
  /\ count is_deadline_setup (fst (build_handler cfg g req)) = 0
  /\ count is_cancel (fst (build_handler cfg g req)) = 0
  /\ (forall r', In r' (engine_calls (fst (build_handler cfg g req))) ->
        req_Context r' = req_Context req).
Proof.
  intros HT.
  assert (Hb : forall h : Handler, build_handler cfg h = strip_stage cfg h).
  { intros h. rewrite build_handler_stages.
    now rewrite (proj2 (Z.ltb_ge _ _) HT). }
  split; [exact Hb |]. rewrite Hb.
  destruct (strip_stage_no_deadline cfg req) as [H1 H2].
  repeat split; auto.
  apply strip_stage_engine_context.
Qed.

(** C5: with a positive fetch timeout, for every request the deadline
    stage runs its downstream handler on the request carrying a context
    made by [context.WithTimeout] from the context the request came with:
    the old context is the parent of the new one, so the new one is done
    as soon as the old one is, and also once the timeout has elapsed.  When
    the downstream handler returns, the cancel function of that context is
    the next and last effect; when it panics, the panic passes through and
    nothing more runs. *)
Theorem deadline_derived_and_cancelled (cfg : Config) (h : Handler) (req : Request) :
  (0 < fetchTimeout cfg)%Z ->
  let T := fetchTimeout cfg in
  let ctx := ctxWithTimeout (req_Context req) T in
  let down := strip_stage cfg h (WithContext req ctx) in
  ctx_parent ctx = Some (req_Context req)
  /\ (forall cancelled elapsed,
        ctx_done cancelled elapsed (req_Context req) = true ->
        ctx_done cancelled elapsed ctx = true)
  /\ (forall cancelled elapsed,
        (T <= elapsed)%Z -> ctx_done cancelled elapsed ctx = true)
  /\ (forall r',
        In r' (engine_calls (fst (build_handler cfg g req))) ->
        req_Context r' = ctx)
  /\ (snd down = Returned ->
      build_handler cfg h req
      = (EvWithTimeout (req_Context req) T :: (fst down ++ [EvCancel ctx])%list,
         Returned))
  /\ (snd down = Panicked ->
      build_handler cfg h req
      = (EvWithTimeout (req_Context req) T :: fst down, Panicked))
  /\ (snd (build_handler cfg g req) = Returned ->
      count is_deadline_setup (fst (build_handler cfg g req)) = 1
      /\ count is_cancel (fst (build_handler cfg g req)) = 1).
Proof.
  intros HT T ctx down.
  assert (Hb : forall k : Handler,
             build_handler cfg k req = withFetchTimeout T (strip_stage cfg k) req).
  { intros k. rewrite build_handler_stages.
  now rewrite (proj2 (Z.ltb_lt _ _) HT). }
  split; [reflexivity |].
  split.
  { intros cancelled elapsed Hd. simpl. rewrite Hd.
    now rewrite !orb_true_r. }
  split.
  { intros cancelled elapsed Hd. simpl.
    rewrite (proj2 (Z.leb_le _ _) Hd). now rewrite orb_true_r. }
  split.
  { intros r'. rewrite Hb, withFetchTimeout_run. fold T ctx.
    pose proof (strip_stage_engine_context cfg (WithContext req ctx) r') as Hc.
    destruct (snd (strip_stage cfg g (WithContext req ctx))); simpl.
    - rewrite engine_calls_app; simpl. rewrite app_nil_r. exact Hc.
    - exact Hc. }
  split.
  { intros Hr. rewrite Hb, withFetchTimeout_run. fold T ctx down.
    now rewrite Hr. }
  split.
  { intros Hr. rewrite Hb, withFetchTimeout_run. fold T ctx down.
    now rewrite Hr. }
  rewrite Hb, withFetchTimeout_run. fold T ctx.
  destruct (strip_stage_no_deadline cfg (WithContext req ctx)) as [H1 H2].
  destruct (snd (strip_stage cfg g (WithContext req ctx))); simpl;
    [| discriminate].
  intros _. unfold count in *. simpl. rewrite !filter_app, !List.length_app.
  rewrite H1, H2. split; reflexivity.
Qed.

End Pipeline.

(** C1, as the claim states it, fails: a request outside the prefix is
    rejected only after a deadline context has been created for it. *)
Lemma rejected_request_has_deadline :
  ~ (forall (behaviour : Request -> Outcome) (cfg : Config) (req : Request),
        pathPrefix cfg <> EmptyString ->
        (0 < fetchTimeout cfg)%Z ->
        no_deadline_before_rejection
          (fst (build_handler cfg (engine behaviour) req))).
Proof.
  intros H.
  specialize (H (fun _ => Returned) (sample_config "/proxy" ten_minutes)
                (sample_request "/other" EmptyString)).
  assert (Hp : pathPrefix (sample_config "/proxy" ten_minutes) <> EmptyString)
    by discriminate.
  specialize (H Hp eq_refl
                [EvWithTimeout (ctxBase 0) ten_minutes]
                [EvCancel (ctxWithTimeout (ctxBase 0) ten_minutes)] eq_refl).
  discriminate H.
Qed.

Lemma deadline_wraps_prefix_stage_witness :
  pathPrefix (sample_config "/proxy" ten_minutes) <> EmptyString
  /\ (0 < fetchTimeout (sample_config "/proxy" ten_minutes))%Z
  /\ build_handler (sample_config "/proxy" ten_minutes)
       (engine (fun _ => Returned)) (sample_request "/other" EmptyString)
     = ([EvWithTimeout (ctxBase 0) ten_minutes; EvNotFound;
         EvCancel (ctxWithTimeout (ctxBase 0) ten_minutes)], Returned).
Proof.
  split; [discriminate |]. split; [reflexivity |].
  apply (deadline_wraps_prefix_stage (fun _ => Returned)
           (sample_config "/proxy" ten_minutes)
           (sample_request "/other" EmptyString));
    [discriminate | reflexivity | reflexivity].
Defined.

Lemma mismatch_is_not_found_witness :
  pathPrefix (sample_config "/proxy" 0) <> EmptyString
  /\ HasPrefix "/other/mod/@v/list" "/proxy" = false
  /\ engine_calls
       (fst (build_handler (sample_config "/proxy" 0)
               (engine (fun _ => Panicked))
               (sample_request "/other/mod/@v/list" EmptyString))) = [].
Proof.
  split; [discriminate |]. split; [reflexivity |].
  apply (mismatch_is_not_found (sample_config "/proxy" 0)
           (engine (fun _ => Panicked))
           (sample_request "/other/mod/@v/list" EmptyString));
    [discriminate | reflexivity].
Defined.

(** C3, as the claim states it, fails: the path starts with the prefix,
    but the escaped path of the request does not, and the request is
    rejected instead of reaching the engine. *)
Lemma escaped_prefix_is_rejected :
  ~ (forall (behaviour : Request -> Outcome) (cfg : Config) (req : Request),
        pathPrefix cfg <> EmptyString ->
        HasPrefix (Path (req_URL req)) (pathPrefix cfg) = true ->
        engine_sees_suffix (pathPrefix cfg) req
          (fst (build_handler cfg (engine behaviour) req))).
Proof.
  intros H.
  specialize (H (fun _ => Returned) (sample_config "/a/" 0)
                (sample_request "/a/b" "/a%2Fb")).
  assert (Hp : pathPrefix (sample_config "/a/" 0) <> EmptyString)
    by discriminate.
  destruct (H Hp eq_refl) as [r' [Hcalls _]].
  discriminate Hcalls.
Qed.

Lemma match_strips_one_prefix_witness :
  pathPrefix (sample_config "/a" ten_minutes) <> EmptyString
  /\ HasPrefix "/a/a/b" "/a" = true
  /\ (RawPath (req_URL (sample_request "/a/a/b" EmptyString)) = EmptyString
      \/ HasPrefix (RawPath (req_URL (sample_request "/a/a/b" EmptyString))) "/a"
         = true)
  /\ engine_sees_suffix "/a" (sample_request "/a/a/b" EmptyString)
       (fst (build_handler (sample_config "/a" ten_minutes)
               (engine (fun _ => Returned))
               (sample_request "/a/a/b" EmptyString))).
Proof.
  split; [discriminate |]. split; [reflexivity |].
  split; [left; reflexivity |].
  apply (match_strips_one_prefix (fun _ => Returned)
           (sample_config "/a" ten_minutes)
           (sample_request "/a/a/b" EmptyString));
    [discriminate | reflexivity | left; reflexivity].
Defined.

Lemma nonpositive_timeout_is_pass_through_witness :
  (fetchTimeout (sample_config "/proxy" 0) <= 0)%Z
  /\ count is_deadline_setup
       (fst (build_handler (sample_config "/proxy" 0)
               (engine (fun _ => Returned))
               (sample_request "/proxy/mod/@v/list" EmptyString))) = 0.
Proof.
  split; [discriminate |].
  apply (nonpositive_timeout_is_pass_through (fun _ => Returned)
           (sample_config "/proxy" 0)
           (sample_request "/proxy/mod/@v/list" EmptyString)).
  discriminate.
Defined.

Lemma deadline_derived_and_cancelled_witness :
  (0 < fetchTimeout (sample_config EmptyString ten_minutes))%Z
  /\ (snd (strip_stage (sample_config EmptyString ten_minutes)
             (engine (fun _ => Returned))
             (WithContext (sample_request "/mod/@v/list" EmptyString)
                (ctxWithTimeout (ctxBase 0) ten_minutes))) = Returned ->
      build_handler (sample_config EmptyString ten_minutes)
        (engine (fun _ => Returned))
        (sample_request "/mod/@v/list" EmptyString)
      = ([EvWithTimeout (ctxBase 0) ten_minutes;
          EvEngine (WithContext (sample_request "/mod/@v/list" EmptyString)
                      (ctxWithTimeout (ctxBase 0) ten_minutes));
          EvCancel (ctxWithTimeout (ctxBase 0) ten_minutes)], Returned)).
Proof.
  split; [reflexivity |].
  apply (deadline_derived_and_cancelled (fun _ => Returned)
           (sample_config EmptyString ten_minutes)
           (engine (fun _ => Returned))
           (sample_request "/mod/@v/list" EmptyString)).
  reflexivity.
Defined.

(* ================================================================= *)
(** ** Serving *)

Section Serving.

Variable serve : ServeCall -> option GoError.

(** C8: [main] serves with TLS exactly when the certificate path and the
    key path are both non-empty; with both empty or only one of them set
    it serves plain HTTP on the configured address, and that is the first
    thing it does: nothing is logged before the server runs, and nothing
    at all when the server stops without an error. *)
Theorem tls_iff_cert_and_key (cfg : Config) :
  (is_TLS (serve_call cfg) = true
   <-> tlsCertFile cfg <> EmptyString /\ tlsKeyFile cfg <> EmptyString)
  /\ (tlsCertFile cfg <> EmptyString /\ tlsKeyFile cfg <> EmptyString ->
      serve_call cfg
      = ListenAndServeTLS (address cfg) (tlsCertFile cfg) (tlsKeyFile cfg))
  /\ (tlsCertFile cfg = EmptyString \/ tlsKeyFile cfg = EmptyString ->
      serve_call cfg = ListenAndServe (address cfg))
  /\ (exists rest, main_serve cfg serve = EvServe (serve_call cfg) :: rest)
  /\ (serve (serve_call cfg) = None ->
      main_serve cfg serve = [EvServe (serve_call cfg)]).
Proof.
  unfold main_serve, serve_call.
  destruct (String.eqb_spec (tlsCertFile cfg) EmptyString) as [Hc | Hc];
    destruct (String.eqb_spec (tlsKeyFile cfg) EmptyString) as [Hk | Hk];
    simpl; repeat split;
    try discriminate; try tauto; try (intros [? ?]; tauto);
    try (eexists; reflexivity);
    try (intros ->; reflexivity).
Qed.

(** C9: when the serve call returns, [main] has called it once and does
    not call it again.  A nil error and the server-closed error (alone or
    wrapped) are not reported; any other error is logged, once, as
    "http server error: " followed by its text, and [main] returns. *)
Theorem serve_error_reporting (cfg : Config) :
  count_main is_serve (main_serve cfg serve) = 1
  /\ (serve (serve_call cfg) = None ->
      main_serve cfg serve = [EvServe (serve_call cfg)])
  /\ (forall e, serve (serve_call cfg) = Some e ->
        errors_Is_ServerClosed e = true ->
        main_serve cfg serve = [EvServe (serve_call cfg)])
  /\ (serve (serve_call cfg) = Some ErrServerClosed ->
      count_main is_log (main_serve cfg serve) = 0)
  /\ (forall e, serve (serve_call cfg) = Some e ->
        errors_Is_ServerClosed e = false ->
        main_serve cfg serve
        = [EvServe (serve_call cfg);
           EvLog ("http server error: " ++ Error e ++ newline)]
        /\ count_main is_log (main_serve cfg serve) = 1).
Proof.
  unfold main_serve.
  destruct (serve (serve_call cfg)) as [e |].
  - destruct (errors_Is_ServerClosed e) eqn:He; simpl.
    + split; [reflexivity |]. split; [discriminate |].
      split; [reflexivity |]. split; [reflexivity |].
      intros e' [= <-] He'. congruence.
    + split; [reflexivity |]. split; [discriminate |].
      split; [intros e' [= <-] He'; congruence |].
      split; [intros [= ->]; discriminate He |].
      intros e' [= <-] _. split; reflexivity.
  - split; [reflexivity |]. split; [reflexivity |].
    split; [discriminate |]. split; [discriminate |]. discriminate.
Qed.

End Serving.

(* ================================================================= *)
(** ** The file resolver *)

Section Resolver.

Variable pf : Platform.
Variable fsys : FileSystem.

Lemma FromSlash_length (name : string) :
  length (FromSlash pf name) = length name.
Proof.
  unfold FromSlash. destruct (Ascii.eqb (Separator pf) slash);
    [reflexivity | apply length_ReplaceAllByte].
Qed.

Lemma slice_from_1 (s : string) :
  slice_from 1 s = match s with
                   | EmptyString => None
                   | String _ s' => Some s'
                   end.
Proof. destruct s; reflexivity. Qed.

(** On a platform with another separator the first stage is the
    translation alone. *)
Lemma translate_no_backslash (name : string) :
  Separator pf <> backslash -> translate pf name = Ok (FromSlash pf name).
Proof.
  intros H. unfold translate.
  now rewrite (proj2 (Ascii.eqb_neq _ _) H).
Qed.

Lemma translate_backslash (name : string) :
  Separator pf = backslash ->
  translate pf name =
  match slice_from 1 (FromSlash pf name) with
  | None => Panic "slice bounds out of range [1:0]"
  | Some rest =>
      if (VolumeName pf rest =? EmptyString)
         || HasPrefix (VolumeName pf rest) unc_prefix
      then Err err_missing_drive_letter
      else Ok rest
  end.
Proof.
  intros H. unfold translate. now rewrite H, Ascii.eqb_refl.
Qed.

(** C6: where the separator is a backslash, [Open] returns the error
    "file URL missing drive letter", having made no file-system call,
    exactly when the translated name has a first byte and what remains
    after that byte has an empty volume name or a volume name that starts
    with two backslashes. *)
Theorem missing_drive_letter_iff (name : string) :
  Separator pf = backslash ->
  FromSlash pf name = ReplaceAllByte slash backslash name
  /\ (Open pf fsys name = ([], Err err_missing_drive_letter)
      <-> exists rest,
            slice_from 1 (FromSlash pf name) = Some rest
            /\ (VolumeName pf rest = EmptyString
                \/ HasPrefix (VolumeName pf rest) unc_prefix = true))
  /\ (forall e, translate pf name = Err e -> Open pf fsys name = ([], Err e)).
Proof.
  intros Hsep. split; [| split].
  - unfold FromSlash. rewrite Hsep. reflexivity.
  - unfold Open. rewrite (translate_backslash name Hsep).
    destruct (slice_from 1 (FromSlash pf name)) as [rest |].
    + destruct (String.eqb_spec (VolumeName pf rest) EmptyString) as [Hv | Hv];
        simpl.
      * split; [| reflexivity]. intros _. exists rest. auto.
      * destruct (HasPrefix (VolumeName pf rest) unc_prefix) eqn:Hu.
        -- split; [| reflexivity]. intros _. exists rest. auto.
        -- split.
           ++ destruct (IsAbs pf rest); simpl; discriminate.
           ++ intros [rest' [[= <-] [Hv' | Hu']]]; congruence.
    + split; [discriminate |]. intros [rest [H _]]. discriminate H.
  - intros e Ht. unfold Open. now rewrite Ht.
Qed.

(** C7: on any platform, a name that leaves the first stage and is not
    absolute makes [Open] return "path is not absolute" without a
    file-system call; an absolute one is opened with one call of
    [OpenFile] for reading, and [Open] returns the file or, unchanged,
    the error of that call.  Outside backslash platforms the name that
    leaves the first stage is the translated input. *)
Theorem absolute_or_rejected (name n : string) :
  translate pf name = Ok n ->
  (Separator pf <> backslash -> n = FromSlash pf name)
  /\ (Separator pf = backslash -> slice_from 1 (FromSlash pf name) = Some n)
  /\ (IsAbs pf n = false -> Open pf fsys name = ([], Err err_not_absolute))
  /\ (IsAbs pf n = true ->
      fst (Open pf fsys name) = [SysOpenFile n O_RDONLY 0%Z]
      /\ (forall f, fsys n O_RDONLY 0%Z = inl f ->
            snd (Open pf fsys name) = Ok f)
      /\ (forall e, fsys n O_RDONLY 0%Z = inr e ->
            snd (Open pf fsys name) = Err e)).
Proof.
  intros Ht. split; [| split; [| split]].
  - intros Hsep. rewrite (translate_no_backslash name Hsep) in Ht.
    now injection Ht.
  - intros Hsep. rewrite (translate_backslash name Hsep) in Ht.
    destruct (slice_from 1 (FromSlash pf name)) as [rest |]; [| discriminate].
    match type of Ht with context [if ?c then _ else _] => destruct c end;
      [discriminate | now injection Ht as ->].
  - intros Habs. unfold Open. now rewrite Ht, Habs.
  - intros Habs. unfold Open, os_Open. rewrite Ht, Habs. simpl.
    split; [reflexivity |].
    split; intros x Hx; now rewrite Hx.
Qed.

(** C10: where the separator is a backslash, the slice [name[1:]] comes
    before every test.  On the empty name it is out of range: [Open]
    panics, returns no error and makes no file-system call.  The
    drive-letter error is returned only for names of at least one byte,
    and on names of at least one byte [Open] does not panic. *)
Theorem empty_name_panics :
  Separator pf = backslash ->
  Open pf fsys EmptyString = ([], Panic "slice bounds out of range [1:0]")
  /\ (forall e, snd (Open pf fsys EmptyString) <> Err e)
  /\ (forall name,
        translate pf name = Err err_missing_drive_letter ->
        1 <= length name)
  /\ (forall name m,
        name <> EmptyString -> snd (Open pf fsys name) <> Panic m).
Proof.
  intros Hsep.
  assert (H0 : Open pf fsys EmptyString
               = ([], Panic "slice bounds out of range [1:0]")).
  { unfold Open. rewrite (translate_backslash _ Hsep).
    unfold FromSlash. rewrite Hsep. reflexivity. }
  split; [exact H0 |]. split; [| split].
  - intros e. rewrite H0. discriminate.
  - intros name Ht. rewrite (translate_backslash _ Hsep) in Ht.
    rewrite slice_from_1 in Ht. pose proof (FromSlash_length name) as Hl.
    destruct (FromSlash pf name); [discriminate |].
    simpl in Hl. lia.
  - intros name m Hne. unfold Open. rewrite (translate_backslash _ Hsep).
    rewrite slice_from_1. pose proof (FromSlash_length name) as Hl.
    destruct (FromSlash pf name) as [| c rest].
    + destruct name; [congruence | discriminate].
    + match goal with |- context [if ?c then _ else _] => destruct c end;
        [discriminate |].
      destruct (IsAbs pf rest); simpl; [| discriminate].
      destruct (fsys rest O_RDONLY 0%Z); discriminate.
Qed.

End Resolver.

Lemma missing_drive_letter_iff_witness :
  Separator Windows.platform = backslash
  /\ (Open Windows.platform sample_fs "/mods/example"
      = ([], Err err_missing_drive_letter)
      <-> exists rest,
            slice_from 1 (FromSlash Windows.platform "/mods/example") = Some rest
            /\ (VolumeName Windows.platform rest = EmptyString
                \/ HasPrefix (VolumeName Windows.platform rest) unc_prefix = true)).
Proof.
  split; [reflexivity |].
  apply (missing_drive_letter_iff Windows.platform sample_fs "/mods/example").
  reflexivity.
Defined.

Lemma absolute_or_rejected_witness :
  translate Windows.platform "/C:/mods/missing" = Ok "C:\mods\missing"
  /\ (IsAbs Windows.platform "C:\mods\missing" = true ->
      fst (Open Windows.platform sample_fs "/C:/mods/missing")
      = [SysOpenFile "C:\mods\missing" O_RDONLY 0%Z]
      /\ (forall f, sample_fs "C:\mods\missing" O_RDONLY 0%Z = inl f ->
            snd (Open Windows.platform sample_fs "/C:/mods/missing") = Ok f)
      /\ (forall e, sample_fs "C:\mods\missing" O_RDONLY 0%Z = inr e ->
            snd (Open Windows.platform sample_fs "/C:/mods/missing") = Err e)).
Proof.
  split; [reflexivity |].
  apply (absolute_or_rejected Windows.platform sample_fs
           "/C:/mods/missing" "C:\mods\missing").
  reflexivity.
Defined.

Lemma empty_name_panics_witness :
  Separator Windows.platform = backslash
  /\ Open Windows.platform sample_fs EmptyString
     = ([], Panic "slice bounds out of range [1:0]").
Proof.
  split; [reflexivity |].
  apply (empty_name_panics Windows.platform sample_fs). reflexivity.
Defined.

(** The resolutions listed in the specification. *)
Example open_drive_path :
  Open Windows.platform sample_fs "/C:/mods/example"
  = ([SysOpenFile "C:\mods\example" O_RDONLY 0%Z],
     Ok {| file_name := "C:\mods\example" |}).
Proof. reflexivity. Qed.

Example open_without_drive :
  Open Windows.platform sample_fs "/mods/example"
  = ([], Err err_missing_drive_letter).
Proof. reflexivity. Qed.

Example open_unc_share :
  Open Windows.platform sample_fs "///host/share/mods"
  = ([], Err err_missing_drive_letter).
Proof. reflexivity. Qed.

Example open_drive_relative :
  Open Windows.platform sample_fs "/C:mods"
  = ([], Err err_not_absolute).
Proof. reflexivity. Qed.

Example open_relative_on_unix :
  Open Unix.platform sample_fs "mods/example"
  = ([], Err err_not_absolute).
Proof. reflexivity. Qed.

Example open_missing_on_unix :
  Open Unix.platform sample_fs "/mods/example"
  = ([SysOpenFile "/mods/example" O_RDONLY 0%Z],
     Err (wrapError "open /mods/example: no such file or directory"
            (errorString "no such file or directory"))).
Proof. reflexivity. Qed.

(* ================================================================= *)
(** ** Further properties of the request pipeline *)

Section PipelineShape.

Variable behaviour : Request -> Outcome.

Local Abbreviation g := (engine behaviour).

(** An escaped path that is set and lacks the prefix is rejected, whatever
    the path is. *)
Lemma StripPrefix_raw_miss (P : string) (h : Handler) (req : Request) :
  P <> EmptyString ->
  RawPath (req_URL req) <> EmptyString ->
  HasPrefix (RawPath (req_URL req)) P = false ->
  StripPrefix P h req = emit EvNotFound.
Proof.
  intros HP Hset Hmiss. unfold StripPrefix.
  rewrite (eqb_empty_false _ HP), (eqb_empty_false _ Hset).
  rewrite (TrimPrefix_miss _ _ Hmiss), Nat.ltb_irrefl.
  now rewrite andb_false_r.
Qed.

(** What the first stage hands on: the request with the prefix taken off
    both forms of the path. *)
Lemma strip_stage_shape (cfg : Config) (h : Handler) (req : Request) :
  strip_stage cfg h req = emit EvNotFound
  \/ exists u,
       strip_stage cfg h req = h {| req_URL := u; req_Context := req_Context req |}
       /\ Path (req_URL req) = pathPrefix cfg ++ Path u
       /\ (RawPath (req_URL req) = EmptyString /\ RawPath u = EmptyString
           \/ RawPath (req_URL req) = pathPrefix cfg ++ RawPath u).
Proof.
  destruct (String.eqb_spec (pathPrefix cfg) EmptyString) as [He | HP].
  - right. exists (req_URL req). unfold strip_stage. rewrite He. simpl.
    destruct req; auto.
  - rewrite (strip_stage_configured _ _ HP).
    destruct (HasPrefix (Path (req_URL req)) (pathPrefix cfg)) eqn:Hp;
      [| left; now apply StripPrefix_miss].
    destruct (String.eqb_spec (RawPath (req_URL req)) EmptyString) as [Hr | Hr].
    + right. eexists. split; [apply StripPrefix_hit; auto |]. simpl.
      apply HasPrefix_iff in Hp as [r Hp]. rewrite Hp, TrimPrefix_app.
      split; [reflexivity |]. left. split; [exact Hr |]. rewrite Hr.
      now destruct (pathPrefix cfg).
    + destruct (HasPrefix (RawPath (req_URL req)) (pathPrefix cfg)) eqn:Hq;
        [| left; now apply StripPrefix_raw_miss].
      right. eexists. split; [apply StripPrefix_hit; auto |]. simpl.
      apply HasPrefix_iff in Hp as [r Hp]. apply HasPrefix_iff in Hq as [q Hq].
      rewrite Hp, Hq, !TrimPrefix_app. auto.
Qed.

(** The two runs of the whole chain: a rejection, or one call of the
    engine; each inside the deadline events when a timeout is set. *)
Lemma build_handler_shape (cfg : Config) (req : Request) :
  let T := fetchTimeout cfg in
  let timed := (0 <? T)%Z in
  let ctx := if timed then ctxWithTimeout (req_Context req) T
             else req_Context req in
  let opening := if timed then [EvWithTimeout (req_Context req) T] else [] in
  let closing := if timed then [EvCancel ctx] else [] in
  build_handler cfg g req = ((opening ++ EvNotFound :: closing)%list, Returned)
  \/ exists u,
       Path (req_URL req) = pathPrefix cfg ++ Path u
       /\ (RawPath (req_URL req) = EmptyString /\ RawPath u = EmptyString
           \/ RawPath (req_URL req) = pathPrefix cfg ++ RawPath u)
       /\ build_handler cfg g req
          = match behaviour {| req_URL := u; req_Context := ctx |} with
            | Returned =>
                ((opening
                  ++ EvEngine {| req_URL := u; req_Context := ctx |} :: closing)%list,
                 Returned)
            | Panicked =>
                ((opening
                  ++ [EvEngine {| req_URL := u; req_Context := ctx |}])%list,
                 Panicked)
            end.
Proof.
  cbv zeta. rewrite build_handler_stages.
  destruct (0 <? fetchTimeout cfg)%Z.
  - rewrite withFetchTimeout_run.
    destruct (strip_stage_shape cfg g
                (WithContext req (ctxWithTimeout (req_Context req) (fetchTimeout cfg))))
      as [-> | [u [-> [Hp Hr]]]]; simpl.
    + now left.
    + right. exists u. split; [exact Hp |]. split; [exact Hr |].
      unfold engine; simpl. destruct (behaviour _); reflexivity.
  - destruct (strip_stage_shape cfg g req) as [-> | [u [-> [Hp Hr]]]]; simpl.
    + now left.
    + right. exists u. split; [exact Hp |]. split; [exact Hr |].
      unfold engine; simpl. destruct (behaviour _); reflexivity.
Qed.

(** X1: whatever the configuration, a request that reaches the engine has
    the configured prefix in front of the path the engine sees (with no
    prefix configured the two paths are equal), and the same holds for the
    escaped path when the request has one. *)
Theorem engine_path_is_suffix (cfg : Config) (req r' : Request) :
  In r' (engine_calls (fst (build_handler cfg g req))) ->
  Path (req_URL req) = pathPrefix cfg ++ Path (req_URL r')
  /\ (RawPath (req_URL req) = EmptyString /\ RawPath (req_URL r') = EmptyString
      \/ RawPath (req_URL req) = pathPrefix cfg ++ RawPath (req_URL r')).
Proof.
  destruct (build_handler_shape cfg req) as [-> | [u [Hp [Hr ->]]]].
  - destruct (0 <? fetchTimeout cfg)%Z; simpl; tauto.
  - destruct (behaviour _), (0 <? fetchTimeout cfg)%Z; simpl;
      intros [<- | []]; auto.
Qed.

(** X2: with no prefix configured no request is answered 404 by the
    pipeline: every request reaches the engine, once, with both forms of
    its path as they came. *)
Theorem no_prefix_never_rejects (cfg : Config) (req : Request) :
  pathPrefix cfg = EmptyString ->
  count is_not_found (fst (build_handler cfg g req)) = 0
  /\ exists r', engine_calls (fst (build_handler cfg g req)) = [r']
                /\ req_URL r' = req_URL req.
Proof.
  intros He. rewrite build_handler_stages.
  assert (Hs : forall r, strip_stage cfg g r = g r)
    by (intros r; unfold strip_stage; now rewrite He).
  destruct (0 <? fetchTimeout cfg)%Z.
  - rewrite withFetchTimeout_run, Hs. unfold engine; simpl.
    destruct (behaviour _); simpl; (split; [reflexivity |]);
      eexists; split; reflexivity.
  - rewrite Hs. unfold engine; simpl. split; [reflexivity |].
    eexists; split; reflexivity.
Qed.

(** X3: every request gets exactly one of the two treatments, once: the
    404 reply of the prefix stage or a call of the engine. *)
Theorem one_reply_per_request (cfg : Config) (req : Request) :
  count is_not_found (fst (build_handler cfg g req))
  + List.length (engine_calls (fst (build_handler cfg g req))) = 1.
Proof.
  destruct (build_handler_shape cfg req) as [-> | [u [_ [_ ->]]]];
    [| destruct (behaviour _)];
    destruct (0 <? fetchTimeout cfg)%Z; reflexivity.
Qed.

(** X4: with a prefix configured, the engine is left out exactly when the
    path lacks the prefix, or the request has an escaped path and that one
    lacks the prefix. *)
Theorem rejected_iff (cfg : Config) (req : Request) :
  pathPrefix cfg <> EmptyString ->
  engine_calls (fst (build_handler cfg g req)) = []
  <-> HasPrefix (Path (req_URL req)) (pathPrefix cfg) = false
      \/ (RawPath (req_URL req) <> EmptyString
          /\ HasPrefix (RawPath (req_URL req)) (pathPrefix cfg) = false).
Proof.
  intros HP. split.
  - intros Hnone.
    destruct (build_handler_shape cfg req) as [_ | [u [Hp [Hr Hrun]]]].
    + destruct (HasPrefix (Path (req_URL req)) (pathPrefix cfg)) eqn:Hhit;
        [| now left].
      right.
      destruct (String.eqb_spec (RawPath (req_URL req)) EmptyString) as [He | Hne].
      * exfalso. revert Hnone. rewrite build_handler_stages.
        rewrite (strip_stage_configured _ _ HP).
        destruct (0 <? fetchTimeout cfg)%Z.
        -- rewrite withFetchTimeout_run.
           rewrite (StripPrefix_hit _ g (WithContext req _) HP Hhit (or_introl He)).
           unfold engine; simpl. destruct (behaviour _); discriminate.
        -- rewrite (StripPrefix_hit _ g req HP Hhit (or_introl He)).
           discriminate.
      * split; [exact Hne |].
        destruct (HasPrefix (RawPath (req_URL req)) (pathPrefix cfg)) eqn:Hraw;
          [| reflexivity].
        exfalso. revert Hnone. rewrite build_handler_stages.
        rewrite (strip_stage_configured _ _ HP).
        destruct (0 <? fetchTimeout cfg)%Z.
        -- rewrite withFetchTimeout_run.
           rewrite (StripPrefix_hit _ g (WithContext req _) HP Hhit (or_intror Hraw)).
           unfold engine; simpl. destruct (behaviour _); discriminate.
        -- rewrite (StripPrefix_hit _ g req HP Hhit (or_intror Hraw)).
           discriminate.
    + exfalso. rewrite Hrun in Hnone.
      destruct (behaviour _), (0 <? fetchTimeout cfg)%Z; discriminate.
  - intros Hrej. rewrite build_handler_stages, (strip_stage_configured _ _ HP).
    assert (Hs : forall c, StripPrefix (pathPrefix cfg) g (WithContext req c)
                           = emit EvNotFound).
    { intros c. destruct Hrej as [Hmiss | [Hne Hmiss]].
      - now apply StripPrefix_miss.
      - now apply StripPrefix_raw_miss. }
    destruct (0 <? fetchTimeout cfg)%Z.
    + now rewrite withFetchTimeout_run, Hs.
    + replace req with (WithContext req (req_Context req)) by now destruct req.
      now rewrite Hs.
Qed.

(** X5: the pipeline creates at most one deadline per request: one when
    the fetch timeout is positive, none otherwise.  When the run returns,
    every deadline created has been cancelled; when the engine panics, the
    deadline is left to its timer. *)
Theorem deadline_balance (cfg : Config) (req : Request) :
  let t := fst (build_handler cfg g req) in
  count is_deadline_setup t = (if (0 <? fetchTimeout cfg)%Z then 1 else 0)
  /\ (snd (build_handler cfg g req) = Returned ->
      count is_cancel t = count is_deadline_setup t)
  /\ (snd (build_handler cfg g req) = Panicked -> count is_cancel t = 0).
Proof.
  cbv zeta.
  destruct (build_handler_shape cfg req) as [-> | [u [_ [_ ->]]]];
    [| destruct (behaviour _)];
    destruct (0 <? fetchTimeout cfg)%Z; simpl;
    repeat split; intros; try reflexivity; discriminate.
Qed.

(** X6: the pipeline neither causes nor stops a panic: the run of the
    handler ends in a panic exactly when the engine was called and its call
    panicked. *)
Theorem panic_only_from_engine (cfg : Config) (req : Request) :
  snd (build_handler cfg g req) = Panicked
  <-> exists r', engine_calls (fst (build_handler cfg g req)) = [r']
                 /\ behaviour r' = Panicked.
Proof.
  destruct (build_handler_shape cfg req) as [-> | [u [_ [_ ->]]]].
  - split; [discriminate |].
    destruct (0 <? fetchTimeout cfg)%Z; intros [r' [H _]]; discriminate H.
  - destruct (behaviour _) eqn:Hb; destruct (0 <? fetchTimeout cfg)%Z; simpl;
      (split; [first [discriminate
                     | intros _; eexists; split; [reflexivity | exact Hb]]
              | intros [r' [[= <-] Hr']]; congruence]).
Qed.

End PipelineShape.

Lemma engine_path_is_suffix_witness :
  In (sample_request "/mod/@v/list" EmptyString)
     (engine_calls
        (fst (build_handler (sample_config "/proxy" 0) (engine (fun _ => Returned))
                (sample_request "/proxy/mod/@v/list" EmptyString))))
  /\ Path (req_URL (sample_request "/proxy/mod/@v/list" EmptyString))
     = pathPrefix (sample_config "/proxy" 0)
       ++ Path (req_URL (sample_request "/mod/@v/list" EmptyString)).
Proof.
  split; [left; reflexivity |].
  apply (engine_path_is_suffix (fun _ => Returned) (sample_config "/proxy" 0)
           (sample_request "/proxy/mod/@v/list" EmptyString)
           (sample_request "/mod/@v/list" EmptyString)).
  left; reflexivity.
Defined.

Lemma no_prefix_never_rejects_witness :
  pathPrefix (sample_config EmptyString ten_minutes) = EmptyString
  /\ count is_not_found
       (fst (build_handler (sample_config EmptyString ten_minutes)
               (engine (fun _ => Panicked))
               (sample_request "/mod/@v/list" "/mod/%40v/list"))) = 0.
Proof.
  split; [reflexivity |].
  apply (no_prefix_never_rejects (fun _ => Panicked)
           (sample_config EmptyString ten_minutes)
           (sample_request "/mod/@v/list" "/mod/%40v/list")).
  reflexivity.
Defined.

Lemma rejected_iff_witness :
  pathPrefix (sample_config "/a/" ten_minutes) <> EmptyString
  /\ (engine_calls
        (fst (build_handler (sample_config "/a/" ten_minutes)
                (engine (fun _ => Returned)) (sample_request "/a/b" "/a%2Fb"))) = []
      <-> HasPrefix "/a/b" "/a/" = false
          \/ ("/a%2Fb" <> EmptyString /\ HasPrefix "/a%2Fb" "/a/" = false)).
Proof.
  split; [discriminate |].
  apply (rejected_iff (fun _ => Returned) (sample_config "/a/" ten_minutes)
           (sample_request "/a/b" "/a%2Fb")).
  discriminate.
Defined.

(* ================================================================= *)
(** ** Further properties of the file resolver *)

Section ResolverShape.

Variable pf : Platform.
Variable fsys : FileSystem.

Lemma ContainsByte_cons (c d : ascii) (s : string) :
  ContainsByte (String d s) c = Ascii.eqb d c || ContainsByte s c.
Proof.
  unfold ContainsByte; simpl.
  destruct (Ascii.eqb d c); [reflexivity |].
  now destruct (IndexByte s c).
Qed.

(** After the translation to backslashes no slash is left. *)
Lemma ReplaceAllByte_removes (old new : ascii) (s : string) :
  old <> new -> ContainsByte (ReplaceAllByte old new s) old = false.
Proof.
  intros Hne. induction s as [| d s IH]; [reflexivity |].
  simpl. rewrite ContainsByte_cons, IH, orb_false_r.
  destruct (Ascii.eqb_spec d old) as [-> | Hd].
  - apply Ascii.eqb_neq. congruence.
  - now apply Ascii.eqb_neq.
Qed.

Lemma FromSlash_backslash (name : string) :
  Separator pf = backslash ->
  FromSlash pf name = ReplaceAllByte slash backslash name.
Proof. intros H. unfold FromSlash. now rewrite H. Qed.

(** X7: where the separator is a backslash, the first byte of the name
    plays no part: two names that differ only there get the same result
    and the same file-system call. *)
Theorem first_byte_ignored (c c' : ascii) (rest : string) :
  Separator pf = backslash ->
  Open pf fsys (String c rest) = Open pf fsys (String c' rest).
Proof.
  intros Hsep. unfold Open.
  rewrite !(translate_backslash pf _ Hsep), !(FromSlash_backslash _ Hsep).
  reflexivity.
Qed.

(** X8: where the separator is a backslash, a name handed to the file
    system holds no slash (each one was turned into a backslash) and is one
    byte shorter than the name [Open] was given. *)
Theorem opened_name_translated (name n : string) :
  Separator pf = backslash ->
  In n (opened_names (fst (Open pf fsys name))) ->
  ContainsByte n slash = false
  /\ length n + 1 = length name
  /\ exists c, ReplaceAllByte slash backslash name = String c n.
Proof.
  intros Hsep. unfold Open.
  rewrite (translate_backslash pf _ Hsep), (FromSlash_backslash _ Hsep).
  rewrite slice_from_1.
  pose proof (ReplaceAllByte_removes slash backslash name) as Hno.
  pose proof (length_ReplaceAllByte slash backslash name) as Hlen.
  destruct (ReplaceAllByte slash backslash name) as [| c rest]; [intros [] |].
  match goal with |- context [if ?b then _ else _] => destruct b end;
    [intros [] |].
  destruct (IsAbs pf rest); simpl; [| intros []].
  intros [<- | []].
  rewrite ContainsByte_cons in Hno.
  assert (Hs : slash <> backslash) by discriminate.
  specialize (Hno Hs). apply orb_false_iff in Hno as [_ Hno].
  simpl in Hlen. repeat split; [exact Hno | lia | now exists c].
Qed.

(** X9: on any platform [Open] makes at most one file-system call; every
    call opens an absolute name for reading; and a file is returned only
    as the answer of the file system to that one call. *)
Theorem open_result_from_one_call (name : string) :
  List.length (fst (Open pf fsys name)) <= 1
  /\ (forall n flag perm,
        In (SysOpenFile n flag perm) (fst (Open pf fsys name)) ->
        flag = O_RDONLY /\ perm = 0%Z /\ IsAbs pf n = true
        /\ translate pf name = Ok n)
  /\ (forall f,
        snd (Open pf fsys name) = Ok f ->
        exists n, fst (Open pf fsys name) = [SysOpenFile n O_RDONLY 0%Z]
                  /\ fsys n O_RDONLY 0%Z = inl f).
Proof.
  unfold Open.
  destruct (translate pf name) as [n | e | m]; simpl.
  - destruct (IsAbs pf n) eqn:Habs; simpl.
    + split; [lia |]. split.
      * intros n' flag perm [[= <- <- <-] | []]. auto.
      * intros f Hf. exists n. split; [reflexivity |].
        destruct (fsys n O_RDONLY 0%Z); [now injection Hf as -> | discriminate].
    + split; [lia |]. split; [intros ? ? ? [] | discriminate].
  - split; [lia |]. split; [intros ? ? ? [] | discriminate].
  - split; [lia |]. split; [intros ? ? ? [] | discriminate].
Qed.

(** X10: [Open] panics in one case only, on any platform: the separator
    is a backslash and the name is empty. *)
Theorem open_panics_iff (name : string) :
  (exists m, snd (Open pf fsys name) = Panic m)
  <-> Separator pf = backslash /\ name = EmptyString.
Proof.
  unfold Open. split.
  - intros [m Hm].
    destruct (Ascii.eqb_spec (Separator pf) backslash) as [Hsep | Hsep].
    + split; [exact Hsep |].
      rewrite (translate_backslash pf _ Hsep), slice_from_1 in Hm.
      pose proof (FromSlash_length pf name) as Hl.
      destruct (FromSlash pf name) as [| c rest].
      * destruct name; [reflexivity | discriminate].
      * exfalso.
        match type of Hm with context [if ?b then _ else _] => destruct b end;
          [discriminate |].
        destruct (IsAbs pf rest); simpl in Hm; [| discriminate].
        destruct (fsys rest O_RDONLY 0%Z); discriminate.
    + exfalso. rewrite (translate_no_backslash pf _ Hsep) in Hm.
      destruct (IsAbs pf (FromSlash pf name)); simpl in Hm; [| discriminate].
      destruct (fsys _ O_RDONLY 0%Z); discriminate.
  - intros [Hsep ->].
    rewrite (translate_backslash pf _ Hsep), (FromSlash_backslash _ Hsep).
    simpl. eexists; reflexivity.
Qed.

End ResolverShape.

Lemma first_byte_ignored_witness :
  Separator Windows.platform = backslash
  /\ Open Windows.platform sample_fs "/C:/mods/example"
     = Open Windows.platform sample_fs "xC:/mods/example".
Proof.
  split; [reflexivity |].
  apply (first_byte_ignored Windows.platform sample_fs). reflexivity.
Defined.

Lemma opened_name_translated_witness :
  Separator Windows.platform = backslash
  /\ In "C:\mods\example"
       (opened_names (fst (Open Windows.platform sample_fs "/C:/mods/example")))
  /\ ContainsByte "C:\mods\example" slash = false.
Proof.
  split; [reflexivity |]. split; [left; reflexivity |].
  apply (opened_name_translated Windows.platform sample_fs
           "/C:/mods/example" "C:\mods\example");
    [reflexivity | left; reflexivity].
Defined.

Lemma isLetter_not_separator (L : ascii) :
  Windows.isLetter L = true ->
  Ascii.eqb L slash = false /\ Ascii.eqb L backslash = false.
Proof.
  intros H. split; apply Ascii.eqb_neq; intros ->; discriminate H.
Qed.

(** X11: on Windows a name of the form [/L:/rest], where [L] is a letter,
    passes both tests for any [rest]: [Open] asks the file system for
    [L:\rest] with every slash of [rest] turned into a backslash, and
    returns its answer. *)
Theorem windows_drive_path_opens (fsys : FileSystem) (L : ascii) (rest : string) :
  Windows.isLetter L = true ->
  Open Windows.platform fsys
    (String slash (String L (String ":"%char (String slash rest))))
  = os_Open fsys
      (String L (String ":"%char
         (String backslash (ReplaceAllByte slash backslash rest)))).
Proof.
  intros HL. destruct (isLetter_not_separator L HL) as [Hs Hb].
  unfold Open, translate, FromSlash. simpl.
  rewrite Hs. unfold Windows.VolumeName, Windows.volumeNameLen.
  rewrite HL. simpl. unfold HasPrefix, unc_prefix. simpl. rewrite Hb. simpl.
  unfold Windows.IsAbs, Windows.volumeNameLen. rewrite HL. reflexivity.
Qed.

Lemma windows_drive_path_opens_witness :
  Windows.isLetter "C"%char = true
  /\ Open Windows.platform sample_fs "/C:/mods/example"
     = os_Open sample_fs "C:\mods\example".
Proof.
  split; [reflexivity |].
  apply (windows_drive_path_opens sample_fs "C"%char "mods/example").
  reflexivity.
Defined.

(* ================================================================= *)
(** ** Further properties of serving *)

Lemma server_closed_iff_in_chain (e : GoError) :
  errors_Is_ServerClosed e = true <-> In ErrServerClosed (unwrap_chain e).
Proof.
  induction e as [| s | msg inner IH]; simpl.
  - split; auto.
  - split; [discriminate | intros [H | []]; discriminate H].
  - rewrite IH. split; [auto | intros [H | H]; [discriminate H | exact H]].
Qed.

(** X12: [main] writes its log line exactly when the serve call returned
    an error and [http.ErrServerClosed] is nowhere in the chain of errors
    that error wraps; it never writes more than one line. *)
Theorem main_logs_iff (cfg : Config) (serve : ServeCall -> option GoError) :
  (count_main is_log (main_serve cfg serve) = 1
   <-> exists e, serve (serve_call cfg) = Some e
                 /\ ~ In ErrServerClosed (unwrap_chain e))
  /\ count_main is_log (main_serve cfg serve) <= 1.
Proof.
  unfold main_serve.
  destruct (serve (serve_call cfg)) as [e |].
  - destruct (errors_Is_ServerClosed e) eqn:He; simpl.
    + split; [| auto]. split; [discriminate |].
      intros [e' [[= <-] Hn]]. exfalso. apply Hn.
      now apply server_closed_iff_in_chain.
    + split; [| auto]. split; [| reflexivity].
      intros _. exists e. split; [reflexivity |].
      intros Hin. apply server_closed_iff_in_chain in Hin. congruence.
  - simpl. split; [| auto]. split; [discriminate |].
    intros [e [H _]]. discriminate H.
Qed.

(* ================================================================= *)
(** ** The flags and the list of checksum databases *)

Section SplitFacts.

Variable sep : ascii.

Lemma IndexByte_None (s : string) :
  IndexByte s sep = None <-> CountByte s sep = 0.
Proof.
  induction s as [| d s IH]; simpl; [tauto |].
  destruct (Ascii.eqb d sep); simpl.
  - split; discriminate.
  - rewrite <- IH. destruct (IndexByte s sep); split; congruence.
Qed.

(** A separator found at [m] cuts the string into a part without
    separator and a rest with one separator less. *)
Lemma IndexByte_Some (s : string) (m : nat) :
  IndexByte s sep = Some m ->
  s = take m s ++ String sep (drop (S m) s)
  /\ CountByte (take m s) sep = 0
  /\ CountByte s sep = S (CountByte (drop (S m) s) sep).
Proof.
  revert m. induction s as [| d s IH]; intros m Hi; simpl in Hi;
    [discriminate |].
  destruct (Ascii.eqb_spec d sep) as [-> | Hd].
  - injection Hi as <-. simpl. rewrite Ascii.eqb_refl. auto.
  - destruct (IndexByte s sep) as [m' |]; [| discriminate].
    injection Hi as <-. destruct (IH m' eq_refl) as [H1 [H2 H3]].
    change (take (S m') (String d s)) with (String d (take m' s)).
    change (drop (S (S m')) (String d s)) with (drop (S m') s).
    assert (Hc : forall t, CountByte (String d t) sep = CountByte t sep).
    { intros t. cbn [CountByte]. now rewrite (proj2 (Ascii.eqb_neq _ _) Hd). }
    rewrite !Hc. split; [| split; assumption].
    change (String d (take m' s) ++ String sep (drop (S m') s))
      with (String d (take m' s ++ String sep (drop (S m') s))).
    now rewrite <- H1.
Qed.

Lemma split_loop_nonempty (n : nat) (s : string) : split_loop n s sep <> [].
Proof.
  destruct n; simpl; [discriminate |].
  destruct (IndexByte s sep); discriminate.
Qed.

Lemma Join_cons (a : string) (l : list string) (j : string) :
  l <> [] -> Join (a :: l) j = a ++ j ++ Join l j.
Proof. destruct l; [congruence | reflexivity]. Qed.

Lemma append_assoc_sep (a b : string) :
  a ++ String sep EmptyString ++ b = a ++ String sep b.
Proof. reflexivity. Qed.

Lemma split_loop_facts (n : nat) :
  forall s, CountByte s sep = n ->
    List.length (split_loop n s sep) = n + 1
    /\ Join (split_loop n s sep) (String sep EmptyString) = s
    /\ (forall f, In f (split_loop n s sep) -> CountByte f sep = 0).
Proof.
  induction n as [| n IH]; intros s Hc; cbn [split_loop].
  - split; [reflexivity |]. split; [reflexivity |].
    intros f [<- | []]. exact Hc.
  - destruct (IndexByte s sep) as [m |] eqn:Hi.
    + destruct (IndexByte_Some s m Hi) as [Hs [Hhead Hcount]].
      rewrite Nat.add_1_r.
      assert (Hrest : CountByte (drop (S m) s) sep = n) by lia.
      destruct (IH _ Hrest) as [Hlen [Hjoin Hfields]].
      split; [cbn [Datatypes.length]; now rewrite Hlen |]. split.
      * rewrite Join_cons by apply split_loop_nonempty.
        rewrite Hjoin, append_assoc_sep. now rewrite <- Hs.
      * intros f [<- | Hin]; [exact Hhead | now apply Hfields].
    + apply IndexByte_None in Hi. lia.
Qed.

End SplitFacts.

Lemma ContainsByte_count (s : string) (c : ascii) :
  ContainsByte s c = false <-> CountByte s c = 0.
Proof.
  rewrite <- IndexByte_None. unfold ContainsByte.
  destruct (IndexByte s c); split; congruence.
Qed.

(** X13: the list of proxied checksum databases is the value of the flag
    cut at its commas: joining the names with commas gives the flag back,
    and no name holds a comma.  Nothing is trimmed or dropped: spaces and
    empty names stay. *)
Theorem sumdbs_join_round_trip (fl : Flags) :
  Join (ProxiedSUMDBs (goproxy_fields fl)) "," = proxiedSUMDBs fl
  /\ (forall name, In name (ProxiedSUMDBs (goproxy_fields fl)) ->
        ContainsByte name comma = false).
Proof.
  destruct (split_loop_facts comma _ (proxiedSUMDBs fl) eq_refl)
    as [_ [Hjoin Hfields]].
  split; [exact Hjoin |].
  intros name Hin. apply ContainsByte_count. now apply Hfields.
Qed.

(** X14: the list of proxied checksum databases has one name more than
    the flag has commas, so it is never empty: with the flag unset the
    engine gets a list of one name, the empty one. *)
Theorem sumdbs_count (fl : Flags) :
  List.length (ProxiedSUMDBs (goproxy_fields fl))
  = CountByte (proxiedSUMDBs fl) comma + 1
  /\ ProxiedSUMDBs (goproxy_fields fl) <> []
  /\ (proxiedSUMDBs fl = EmptyString ->
      ProxiedSUMDBs (goproxy_fields fl) = [EmptyString]).
Proof.
  destruct (split_loop_facts comma _ (proxiedSUMDBs fl) eq_refl) as [Hlen _].
  split; [exact Hlen |]. split.
  - apply split_loop_nonempty.
  - simpl. unfold Split. now intros ->.
Qed.

(** X15: with every flag at its default, a request goes to the engine
    with its URL as it came, under a deadline of ten minutes that is
    cancelled when the engine returns; the server listens without TLS on
    localhost:8080. *)
Theorem default_flags_behaviour
  (osTempDir : string) (behaviour : Request -> Outcome) (req : Request) :
  let cfg := flags_config (default_flags osTempDir) in
  let ctx := ctxWithTimeout (req_Context req) 600000000000 in
  build_handler cfg (engine behaviour) req
  = (EvWithTimeout (req_Context req) 600000000000
       :: EvEngine (WithContext req ctx)
       :: match behaviour (WithContext req ctx) with
          | Returned => [EvCancel ctx]
          | Panicked => []
          end,
     behaviour (WithContext req ctx))
  /\ serve_call cfg = ListenAndServe "localhost:8080".
Proof.
  cbv zeta. split; [| reflexivity].
  rewrite build_handler_stages.
  change (fetchTimeout (flags_config (default_flags osTempDir)))
    with 600000000000%Z.
  change (0 <? 600000000000)%Z with true. cbv iota.
  rewrite withFetchTimeout_run. unfold strip_stage, engine. simpl.
  destruct (behaviour _); reflexivity.
Qed.

(* ================================================================= *)
(** ** Cancellation through the pipeline, and names on slash platforms *)

(** X16: whatever the configuration, the context the engine works under
    is done as soon as the context of the request is (a client that goes
    away cancels the fetch), and it is done early only for two reasons of
    the pipeline's own: the cancel call, or a positive fetch timeout that
    has elapsed. *)
Theorem engine_context_done_iff
  (behaviour : Request -> Outcome) (cfg : Config) (req r' : Request)
  (cancelled : Context -> bool) (elapsed : Z) :
  In r' (engine_calls (fst (build_handler cfg (engine behaviour) req))) ->
  ctx_done cancelled elapsed (req_Context r') = true
  <-> ctx_done cancelled elapsed (req_Context req) = true
      \/ ((0 < fetchTimeout cfg)%Z
          /\ (cancelled (req_Context r') = true
              \/ (fetchTimeout cfg <= elapsed)%Z)).
Proof.
  destruct (build_handler_shape behaviour cfg req) as [-> | [u [_ [_ ->]]]].
  - destruct (0 <? fetchTimeout cfg)%Z; simpl; tauto.
  - destruct (0 <? fetchTimeout cfg)%Z eqn:HT.
    + apply Z.ltb_lt in HT.
      destruct (behaviour _); simpl; intros [<- | []]; simpl;
        rewrite !orb_true_iff, Z.leb_le; tauto.
    + apply Z.ltb_ge in HT.
      destruct (behaviour _); simpl; intros [<- | []]; simpl;
        (split; [auto | intros [H | [H _]]; [exact H | lia]]).
Qed.

Lemma engine_context_done_iff_witness :
  In (WithContext (sample_request "/mod/@v/list" EmptyString)
        (ctxWithTimeout (ctxBase 0) ten_minutes))
     (engine_calls
        (fst (build_handler (sample_config EmptyString ten_minutes)
                (engine (fun _ => Returned))
                (sample_request "/mod/@v/list" EmptyString))))
  /\ (ctx_done (Context_is_base 0) 5 (ctxWithTimeout (ctxBase 0) ten_minutes) = true
      <-> ctx_done (Context_is_base 0) 5 (ctxBase 0) = true
          \/ ((0 < ten_minutes)%Z
              /\ (Context_is_base 0 (ctxWithTimeout (ctxBase 0) ten_minutes) = true
                  \/ (ten_minutes <= 5)%Z))).
Proof.
  split; [left; reflexivity |].
  apply (engine_context_done_iff (fun _ => Returned)
           (sample_config EmptyString ten_minutes)
           (sample_request "/mod/@v/list" EmptyString)
           (WithContext (sample_request "/mod/@v/list" EmptyString)
              (ctxWithTimeout (ctxBase 0) ten_minutes))
           (Context_is_base 0) 5).
  left; reflexivity.
Defined.

(** X17: where the separator is a slash, a name handed to the file system
    is the name [Open] was given, byte for byte: nothing is cleaned or
    translated. *)
Theorem slash_platform_name_verbatim
  (pf : Platform) (fsys : FileSystem) (name n : string) :
  Separator pf = slash ->
  In n (opened_names (fst (Open pf fsys name))) ->
  n = name /\ IsAbs pf name = true.
Proof.
  intros Hsep. unfold Open.
  assert (Hne : Separator pf <> backslash) by (rewrite Hsep; discriminate).
  rewrite (translate_no_backslash pf _ Hne).
  unfold FromSlash. rewrite Hsep, Ascii.eqb_refl.
  destruct (IsAbs pf name); simpl; [| intros []].
  intros [<- | []]. auto.
Qed.

Lemma slash_platform_name_verbatim_witness :
  Separator Unix.platform = slash
  /\ In "/mods/../etc//x"
       (opened_names (fst (Open Unix.platform sample_fs "/mods/../etc//x")))
  /\ "/mods/../etc//x" = "/mods/../etc//x".
Proof.
  split; [reflexivity |]. split; [left; reflexivity |].
  apply (slash_platform_name_verbatim Unix.platform sample_fs
           "/mods/../etc//x" "/mods/../etc//x");
    [reflexivity | left; reflexivity].
Defined.
